(** * OLSRT documentation build configuration (source/conf.py)

    The repository's single source file is a Sphinx [conf.py]: a Python
    module made of twelve top-level assignments.  Sphinx executes the
    module in a namespace it has prepared and then reads the configuration
    values out of the resulting module globals.

    This development embeds the module as the sequence of statements the
    file contains, gives the small fragment of Python it is written in an
    executable semantics (string, list and dict displays, names, simple
    assignment), and proves the properties of the configuration on the
    namespace that executing the module produces. *)

From stdpp Require Import base option list strings gmap.

Open Scope string_scope.

#[local] Set Warnings "-register-all".

(** ** The Python fragment *)

Module Py.

(** Expressions.  [EName] is a reference to a variable; the three other
    forms are the displays conf.py is written with. *)
Inductive expr : Type :=
| EStr  (s : string)
| EList (items : list expr)
| EDict (items : list (expr * expr))
| EName (x : string).

(** A statement is an assignment to a simple name, [x = e]. *)
Inductive stmt : Type :=
| Assign (x : string) (e : expr).

(** Values.  A dict is a finite map; in this fragment the only hashable
    values are strings, so dict keys are strings. *)
Inductive value : Type :=
| VStr  (s : string)
| VList (items : list value)
| VDict (entries : gmap string value).

(** The exceptions evaluation can raise. *)
Inductive exn : Type :=
| NameError (x : string)
| TypeError_unhashable.

Inductive result (A : Type) : Type :=
| Ok (a : A)
| Raise (e : exn).
Arguments Ok {A} a.
Arguments Raise {A} e.

Definition bind {A B : Type} (r : result A) (k : A -> result B) : result B :=
  match r with
  | Ok a => k a
  | Raise e => Raise e
  end.

Definition is_ok {A : Type} (r : result A) : bool :=
  match r with
  | Ok _ => true
  | Raise _ => false
  end.

Notation "'let*' x := r 'in' k" := (bind r (fun x => k))
  (at level 10, x name, r at level 100, k at level 200).

(** Module globals: a dict from names to values. *)
Abbreviation namespace := (gmap string value).

(** Keys of a dict must be hashable; lists and dicts are not. *)
Definition hash_key (v : value) : result string :=
  match v with
  | VStr s => Ok s
  | VList _ | VDict _ => Raise TypeError_unhashable
  end.

(** The items of a list display, evaluated left to right. *)
Definition eval_items (ev : expr -> result value)
  : list expr -> result (list value) :=
  fix go es :=
    match es with
    | [] => Ok []
    | e :: es' =>
        let* v := ev e in
        let* vs := go es' in
        Ok (v :: vs)
    end.

(** The entries of a dict display, evaluated left to right, each key
    before its value. *)
Definition eval_entries (ev : expr -> result value)
  : list (expr * expr) -> result (list (value * value)) :=
  fix go kvs :=
    match kvs with
    | [] => Ok []
    | (ek, e) :: kvs' =>
        let* k := ev ek in
        let* v := ev e in
        let* rest := go kvs' in
        Ok ((k, v) :: rest)
    end.

(** Building the dict: the evaluated pairs are inserted in order, so a
    later duplicate key overwrites an earlier one. *)
Fixpoint build_map (kvs : list (value * value)) (acc : gmap string value)
  : result (gmap string value) :=
  match kvs with
  | [] => Ok acc
  | (k, v) :: kvs' =>
      let* s := hash_key k in
      build_map kvs' (<[s := v]> acc)
  end.

Fixpoint eval (ns : namespace) (e : expr) : result value :=
  match e with
  | EStr s => Ok (VStr s)
  | EList items =>
      let* vs := eval_items (eval ns) items in
      Ok (VList vs)
  | EDict items =>
      let* kvs := eval_entries (eval ns) items in
      let* m := build_map kvs ∅ in
      Ok (VDict m)
  | EName x =>
      match ns !! x with
      | Some v => Ok v
      | None => Raise (NameError x)
      end
  end.

(** [x = e] evaluates [e] and (re)binds [x] in the namespace. *)
Definition exec_stmt (ns : namespace) (s : stmt) : result namespace :=
  match s with
  | Assign x e => let* v := eval ns e in Ok (<[x := v]> ns)
  end.

(** A module body runs its statements in order; the first exception
    aborts the run. *)
Fixpoint exec (body : list stmt) (ns : namespace) : result namespace :=
  match body with
  | [] => Ok ns
  | s :: body' => let* ns' := exec_stmt ns s in exec body' ns'
  end.

End Py.

Import Py.

(** ** source/conf.py *)

Definition conf_py : list stmt :=
  [ Assign "project"   (EStr "OLSRT");
    Assign "copyright" (EStr "2025, OverLab Group");
    Assign "author"    (EStr "OverLab Group");
    Assign "release"   (EStr "v1.0.1");
    Assign "extensions"
      (EList [ EStr "breathe";
               EStr "sphinx.ext.todo";
               EStr "sphinx.ext.coverage";
               EStr "sphinx.ext.viewcode";
               EStr "sphinx.ext.intersphinx" ]);
    Assign "templates_path"   (EList [EStr "_templates"]);
    Assign "exclude_patterns" (EList []);
    Assign "html_theme"       (EStr "furo");
    Assign "html_static_path" (EList [EStr "_static"]);
    Assign "html_title"       (EStr "OLSRT Documention");
    Assign "breathe_projects" (EDict [(EStr "OLSRT", EStr "./xml")]);
    Assign "breathe_default_project" (EStr "OLSRT") ].

(** ** What the module binds, and what Sphinx reads back *)

Definition target (s : stmt) : string :=
  match s with Assign x _ => x end.

Definition rhs (s : stmt) : expr :=
  match s with Assign _ e => e end.

(** The names a body assigns, in statement order, with repetitions. *)
Definition bound_names (body : list stmt) : list string :=
  target <$> body.

(** Every right-hand side a body assigns to [x], in statement order. *)
Definition bindings (body : list stmt) (x : string) : list expr :=
  rhs <$> filter (fun s => target s = x) body.

(** A literal is a display that mentions no name. *)
Fixpoint is_literal (e : expr) : bool :=
  match e with
  | EStr _ => true
  | EList items => forallb is_literal items
  | EDict items =>
      forallb (fun kv => is_literal kv.1 && is_literal kv.2) items
  | EName _ => false
  end.

(** The value of configuration key [k] once conf.py has been executed in
    the namespace [ns0] the build tool prepared; [None] when the run
    raised or left [k] unbound. *)
Definition config_value (ns0 : namespace) (k : string) : option value :=
  match exec conf_py ns0 with
  | Ok ns => ns !! k
  | Raise _ => None
  end.

(** The plugin identifiers the specification lists as recognized. *)
Definition recognized_identifiers : list string :=
  [ "breathe"; "sphinx.ext.todo"; "sphinx.ext.coverage";
    "sphinx.ext.viewcode"; "sphinx.ext.intersphinx" ].

(** A flat value is a string, a list of strings, or a dict whose values
    are strings: the shapes the build tool accepts for the keys set here. *)
Definition is_str (v : value) : bool :=
  match v with
  | VStr _ => true
  | VList _ | VDict _ => false
  end.

Definition flat_value (v : value) : bool :=
  match v with
  | VStr _ => true
  | VList items => forallb is_str items
  | VDict entries => forallb (fun kv => is_str kv.2) (map_to_list entries)
  end.

(** ** Induction on expressions *)

Section expr_induction.
Variable P : expr -> Prop.
Hypothesis HStr : forall s, P (EStr s).
Hypothesis HList : forall items, Forall P items -> P (EList items).
Hypothesis HDict :
  forall items, Forall (fun kv => P kv.1 /\ P kv.2) items -> P (EDict items).
Hypothesis HName : forall x, P (EName x).

Fixpoint expr_nested_ind (e : expr) : P e :=
  match e with
  | EStr s => HStr s
  | EList items =>
      HList items
        ((fix go (l : list expr) : Forall P l :=
            match l with
            | [] => @ListDef.Forall_nil _ P
            | e1 :: l' =>
                @ListDef.Forall_cons _ P e1 l' (expr_nested_ind e1) (go l')
            end) items)
  | EDict items =>
      HDict items
        ((fix go (l : list (expr * expr))
            : Forall (fun kv => P kv.1 /\ P kv.2) l :=
            match l with
            | [] => @ListDef.Forall_nil _ _
            | kv :: l' =>
                @ListDef.Forall_cons _ _ kv l'
                  (conj (expr_nested_ind kv.1) (expr_nested_ind kv.2)) (go l')
            end) items)
  | EName x => HName x
  end.
End expr_induction.

(** ** Literals evaluate the same in every namespace *)

Lemma eval_items_ext (f g : expr -> result value) (es : list expr) :
  Forall (fun e => f e = g e) es -> eval_items f es = eval_items g es.
Proof.
  induction 1 as [|e es He _ IH]; simpl; [reflexivity|].
  rewrite He, IH. reflexivity.
Qed.

Lemma eval_entries_ext (f g : expr -> result value) (kvs : list (expr * expr)) :
  Forall (fun kv => f kv.1 = g kv.1 /\ f kv.2 = g kv.2) kvs ->
  eval_entries f kvs = eval_entries g kvs.
Proof.
  induction 1 as [|[ek e] kvs [Hk Hv] _ IH]; simpl in *; [reflexivity|].
  rewrite Hk, Hv, IH. reflexivity.
Qed.

Lemma eval_literal (ns1 ns2 : namespace) (e : expr) :
  is_literal e = true -> eval ns1 e = eval ns2 e.
Proof.
  induction e as [s|items IH|items IH|x] using expr_nested_ind;
    simpl; intros Hlit.
  - reflexivity.
  - rewrite (eval_items_ext (eval ns1) (eval ns2)); [reflexivity|].
    induction IH as [|e es He _ IHes]; constructor; simpl in Hlit;
      apply andb_prop in Hlit as [H1 H2]; auto.
  - rewrite (eval_entries_ext (eval ns1) (eval ns2)); [reflexivity|].
    induction IH as [|[ek e] kvs [Hk Hv] _ IHkvs]; constructor; simpl in *;
      apply andb_prop in Hlit as [H1 H2]; [|auto].
    apply andb_prop in H1 as [H1k H1v]. auto.
  - discriminate.
Qed.

(** ** Running a module body *)

Lemma is_ok_inv {A : Type} (r : result A) :
  is_ok r = true -> exists a, r = Ok a.
Proof. destruct r as [a|err]; [eauto|discriminate]. Qed.

Lemma exec_app (a b : list stmt) (ns : namespace) :
  exec (a ++ b) ns = let* mid := exec a ns in exec b mid.
Proof.
  revert ns. induction a as [|s a IH]; intros ns; simpl; [reflexivity|].
  destruct (exec_stmt ns s) as [ns'|err]; simpl; [apply IH|reflexivity].
Qed.

(** A body whose right-hand sides are all literals ignores the namespace
    it starts from: whatever was there is only shadowed. *)
Lemma exec_literal_frame (body : list stmt) (acc ns0 m : namespace) :
  Forall (fun s => is_literal (rhs s) = true) body ->
  exec body acc = Ok m ->
  exec body (acc ∪ ns0) = Ok (m ∪ ns0).
Proof.
  intros Hlit. revert acc.
  induction Hlit as [|[x e] body He _ IH]; intros acc; simpl.
  - intros [= ->]. reflexivity.
  - simpl in He. rewrite (eval_literal (acc ∪ ns0) acc e He).
    destruct (eval acc e) as [v|err]; simpl; [|discriminate].
    intros Hrun. rewrite insert_union_l. apply IH, Hrun.
Qed.

(** A name the body does not assign keeps the value it had. *)
Lemma exec_lookup_unbound (body : list stmt) (ns ns' : namespace) (k : string) :
  k ∉ bound_names body -> exec body ns = Ok ns' -> ns' !! k = ns !! k.
Proof.
  revert ns. induction body as [|[x e] body IH]; intros ns Hk; simpl.
  - intros [= ->]. reflexivity.
  - apply not_elem_of_cons in Hk as [Hkx Hk]. simpl in Hkx.
    destruct (eval ns e) as [v|err]; simpl; [|discriminate].
    intros Hrun. rewrite (IH _ Hk Hrun). apply lookup_insert_ne.
    intros Heq. apply Hkx. symmetry. exact Heq.
Qed.

(** After a run every assigned name is bound. *)
Lemma exec_lookup_bound (body : list stmt) (ns ns' : namespace) (k : string) :
  k ∈ bound_names body -> exec body ns = Ok ns' -> is_Some (ns' !! k).
Proof.
  revert ns. induction body as [|[x e] body IH]; intros ns Hk; simpl.
  - apply elem_of_nil in Hk as [].
  - destruct (eval ns e) as [v|err]; simpl; [|discriminate].
    intros Hrun. destruct (decide (k ∈ bound_names body)) as [Hin|Hout].
    + apply (IH _ Hin Hrun).
    + apply elem_of_cons in Hk as [->|Hin]; [|contradiction].
      rewrite (exec_lookup_unbound _ _ _ _ Hout Hrun), lookup_insert_eq.
      eexists; reflexivity.
Qed.

(** When no name is assigned twice, a value bound in a prefix of the body
    is still the value at the end of the run. *)
Lemma exec_prefix_stable (pre post : list stmt) (ns mid fin : namespace) :
  NoDup (bound_names (pre ++ post)) ->
  exec pre ns = Ok mid ->
  exec post mid = Ok fin ->
  Forall (fun k => mid !! k = fin !! k) (bound_names pre).
Proof.
  unfold bound_names. rewrite fmap_app. intros Hnd _ Hpost.
  apply NoDup_app in Hnd as (_ & Hdisj & _).
  apply Forall_forall. intros k Hk. symmetry.
  apply (exec_lookup_unbound post); [apply Hdisj, Hk|exact Hpost].
Qed.


(** Statements that assign literals to distinct names can be run in any
    order: a successful run of one order is a run of every other. *)
Lemma exec_literal_permutation (body body' : list stmt) :
  body ≡ₚ body' ->
  Forall (fun s => is_literal (rhs s) = true) body ->
  NoDup (bound_names body) ->
  forall ns r : namespace, exec body ns = Ok r -> exec body' ns = Ok r.
Proof.
  induction 1 as [|s l l' Hperm IH|[b eb] [a ea] l|l1 l2 l3 H12 IH12 H23 IH23];
    intros Hlit Hnd ns r.
  - intros Hrun. exact Hrun.
  - apply Forall_cons in Hlit as [_ Hlit].
    apply NoDup_cons in Hnd as [_ Hnd]. simpl.
    destruct (exec_stmt ns s) as [ns'|err]; simpl; [|discriminate].
    apply (IH Hlit Hnd).
  - apply Forall_cons in Hlit as [Ha Hlit].
    apply Forall_cons in Hlit as [Hb _]. simpl in Ha, Hb.
    apply NoDup_cons in Hnd as [Hab _]. simpl in Hab.
    apply not_elem_of_cons in Hab as [Hab _].
    simpl.
    destruct (eval ns ea) as [va|erra] eqn:Hva; simpl.
    + rewrite (eval_literal (<[a:=va]> ns) ns eb Hb).
      destruct (eval ns eb) as [vb|errb]; simpl; [|discriminate].
      rewrite (eval_literal (<[b:=vb]> ns) ns ea Ha), Hva. simpl.
      rewrite (insert_insert_ne ns b a vb va); [|congruence].
      intros Hrun. exact Hrun.
    + discriminate.
  - intros Hrun. apply IH23.
    + rewrite <- H12. exact Hlit.
    + unfold bound_names. rewrite <- H12. exact Hnd.
    + apply (IH12 Hlit Hnd), Hrun.
Qed.

(** ** The fragment on programs conf.py is not *)

(** A name that was never bound raises; a list is not a dict key; a later
    duplicate key wins; a right-hand side that is a name takes its value
    from the starting namespace; a second assignment replaces the first. *)

Example eval_unbound_name : eval ∅ (EName "tags") = Raise (NameError "tags").
Proof. reflexivity. Qed.

Example eval_unhashable_key :
  eval ∅ (EDict [(EList [], EStr "./xml")]) = Raise TypeError_unhashable.
Proof. reflexivity. Qed.

Example eval_duplicate_key :
  eval ∅ (EDict [(EStr "OLSRT", EStr "./a"); (EStr "OLSRT", EStr "./b")])
  = Ok (VDict {[ "OLSRT" := VStr "./b" ]}).
Proof. vm_compute. reflexivity. Qed.

Example exec_name_reads_namespace :
  exec [Assign "project" (EName "name")] {[ "name" := VStr "A" ]}
  = Ok (<["project" := VStr "A"]> {[ "name" := VStr "A" ]}) /\
  exec [Assign "project" (EName "name")] ∅ = Raise (NameError "name").
Proof. split; reflexivity. Qed.

Example exec_reassignment_replaces :
  exec [Assign "release" (EStr "v1"); Assign "release" (EStr "v2")] ∅
  = Ok {[ "release" := VStr "v2" ]}.
Proof. vm_compute. reflexivity. Qed.

(** ** conf.py runs, whatever namespace it is started in *)

Lemma conf_py_literal : Forall (fun s => is_literal (rhs s) = true) conf_py.
Proof. repeat constructor. Qed.

Lemma conf_py_bound_once : NoDup (bound_names conf_py).
Proof. apply (bool_decide_unpack _). vm_compute. exact I. Qed.

Lemma conf_py_runs_empty : exists m : namespace, exec conf_py ∅ = Ok m.
Proof. apply is_ok_inv. vm_compute. reflexivity. Qed.

Lemma conf_py_runs (ns0 : namespace) :
  exists m : namespace,
    exec conf_py ∅ = Ok m /\ exec conf_py ns0 = Ok (m ∪ ns0).
Proof.
  destruct conf_py_runs_empty as [m Hrun].
  exists m. split; [exact Hrun|].
  rewrite <- (left_id_L ∅ (∪) ns0) at 1.
  apply exec_literal_frame; [apply conf_py_literal|exact Hrun].
Qed.

Lemma config_value_frame (ns0 : namespace) (k : string) (v : value) :
  config_value ∅ k = Some v -> config_value ns0 k = Some v.
Proof.
  unfold config_value.
  destruct (conf_py_runs ns0) as (m & -> & ->).
  apply lookup_union_Some_l.
Qed.

Ltac config_lookup := apply config_value_frame; vm_compute; reflexivity.

(** ** Properties of the configuration *)

(** C4: the four project-identity values are plain strings, each bound by
    a string literal: project is 'OLSRT', copyright is
    '2025, OverLab Group', author is 'OverLab Group', release is 'v1.0.1'. *)
Theorem project_identity_strings (ns0 : namespace) :
  (config_value ns0 "project" = Some (VStr "OLSRT") /\
   config_value ns0 "copyright" = Some (VStr "2025, OverLab Group") /\
   config_value ns0 "author" = Some (VStr "OverLab Group") /\
   config_value ns0 "release" = Some (VStr "v1.0.1")) /\
  (bindings conf_py "project" = [EStr "OLSRT"] /\
   bindings conf_py "copyright" = [EStr "2025, OverLab Group"] /\
   bindings conf_py "author" = [EStr "OverLab Group"] /\
   bindings conf_py "release" = [EStr "v1.0.1"]).
Proof.
  split.
  - repeat split; config_lookup.
  - repeat split; vm_compute; reflexivity.
Qed.

(** C1: the value of breathe_default_project is a key of the
    breathe_projects mapping: the default project is "OLSRT" and "OLSRT"
    is in the key set of breathe_projects. *)
Theorem default_project_is_a_project (ns0 : namespace) :
  exists (p : string) (m : gmap string value),
    config_value ns0 "breathe_default_project" = Some (VStr p) /\
    config_value ns0 "breathe_projects" = Some (VDict m) /\
    p = "OLSRT" /\
    p ∈ dom m.
Proof.
  exists "OLSRT", {[ "OLSRT" := VStr "./xml" ]}.
  split; [config_lookup|]. split; [config_lookup|]. split; [reflexivity|].
  rewrite dom_singleton_L. apply elem_of_singleton. reflexivity.
Qed.

(** C2: extensions is an ordered list of exactly five plugin identifiers,
    'breathe', 'sphinx.ext.todo', 'sphinx.ext.coverage',
    'sphinx.ext.viewcode', 'sphinx.ext.intersphinx': every element is a
    recognized identifier, no element is repeated, and each recognized
    identifier occurs exactly once. *)
Theorem extensions_are_the_recognized_five (ns0 : namespace) :
  exists exts : list string,
    config_value ns0 "extensions" = Some (VList (VStr <$> exts)) /\
    exts = [ "breathe"; "sphinx.ext.todo"; "sphinx.ext.coverage";
             "sphinx.ext.viewcode"; "sphinx.ext.intersphinx" ] /\
    length exts = 5 /\
    Forall (fun x => x ∈ recognized_identifiers) exts /\
    NoDup exts /\
    Forall (fun r => count_occ String.string_dec exts r = 1) recognized_identifiers.
Proof.
  exists recognized_identifiers. split; [|split; [reflexivity|]].
  - config_lookup.
  - split; [reflexivity|]. split; [|split].
    + apply Forall_forall. intros x Hx. exact Hx.
    + apply (bool_decide_unpack _). vm_compute. exact I.
    + repeat constructor.
Qed.

(** C3: breathe_projects is a dictionary whose only entry maps the project
    name "OLSRT" to the directory "./xml". *)
Theorem breathe_projects_single_entry (ns0 : namespace) :
  exists m : gmap string value,
    config_value ns0 "breathe_projects" = Some (VDict m) /\
    m = {[ "OLSRT" := VStr "./xml" ]} /\
    map_to_list m = [("OLSRT", VStr "./xml")] /\
    size m = 1 /\
    bindings conf_py "breathe_projects" = [EDict [(EStr "OLSRT", EStr "./xml")]].
Proof.
  exists {[ "OLSRT" := VStr "./xml" ]}.
  split; [config_lookup|]. split; [reflexivity|].
  split; [apply map_to_list_singleton|].
  split; [apply map_size_singleton|]. vm_compute. reflexivity.
Qed.

(** C5: the exclusion-pattern setting is empty: exclude_patterns is the
    empty list. *)
Theorem exclude_patterns_empty (ns0 : namespace) :
  config_value ns0 "exclude_patterns" = Some (VList []) /\
  bindings conf_py "exclude_patterns" = [EList []].
Proof. split; [config_lookup|vm_compute; reflexivity]. Qed.

(** C6: templates_path and html_static_path are each a singleton list of
    one relative path string, ['_templates'] and ['_static']. *)
Theorem path_settings_singletons (ns0 : namespace) :
  exists t s : string,
    config_value ns0 "templates_path" = Some (VList [VStr t]) /\
    config_value ns0 "html_static_path" = Some (VList [VStr s]) /\
    t = "_templates" /\ s = "_static" /\
    String.prefix "/" t = false /\ String.prefix "/" s = false.
Proof.
  exists "_templates", "_static".
  split; [config_lookup|]. split; [config_lookup|].
  repeat split; reflexivity.
Qed.

(** C7: the configuration is a pure, immutable constant record.  Every
    name of the module is assigned exactly once, by a literal; started in
    any two namespaces the module runs to completion and gives every
    configuration key the same value; and the value a key has right after
    any initial segment of the module is the value it has at the end. *)
Theorem configuration_is_constant :
  NoDup (bound_names conf_py) /\
  Forall (fun s => is_literal (rhs s) = true) conf_py /\
  (forall ns1 ns2 : namespace,
     exists r1 r2 : namespace,
       exec conf_py ns1 = Ok r1 /\ exec conf_py ns2 = Ok r2 /\
       Forall (fun k => is_Some (r1 !! k) /\ r1 !! k = r2 !! k)
         (bound_names conf_py)) /\
  (forall (ns0 : namespace) (n : nat),
     exists mid fin : namespace,
       exec (take n conf_py) ns0 = Ok mid /\
       exec (drop n conf_py) mid = Ok fin /\
       exec conf_py ns0 = Ok fin /\
       Forall (fun k => mid !! k = fin !! k) (bound_names (take n conf_py))).
Proof.
  split; [apply conf_py_bound_once|]. split; [apply conf_py_literal|]. split.
  - intros ns1 ns2.
    destruct (conf_py_runs ns1) as (m & Hm & H1).
    destruct (conf_py_runs ns2) as (m' & Hm' & H2).
    rewrite Hm in Hm'. injection Hm' as <-.
    exists (m ∪ ns1), (m ∪ ns2). split; [exact H1|]. split; [exact H2|].
    apply Forall_forall. intros k Hk.
    destruct (exec_lookup_bound conf_py ∅ m k Hk Hm) as [v Hv].
    rewrite (lookup_union_Some_l m ns1 k v Hv).
    rewrite (lookup_union_Some_l m ns2 k v Hv).
    split; [eexists|]; reflexivity.
  - intros ns0 n.
    destruct (conf_py_runs ns0) as (m & _ & Hfin).
    pose proof Hfin as Hsplit.
    rewrite <- (take_drop n conf_py), exec_app in Hsplit.
    destruct (exec (take n conf_py) ns0) as [mid|err] eqn:Hpre;
      simpl in Hsplit; [|discriminate].
    exists mid, (m ∪ ns0). split; [reflexivity|]. split; [exact Hsplit|].
    split; [exact Hfin|].
    apply (exec_prefix_stable (take n conf_py) (drop n conf_py) ns0);
      [|exact Hpre|exact Hsplit].
    rewrite take_drop. apply conf_py_bound_once.
Qed.

(** C8: name consistency: the project string, the breathe_default_project
    string and the unique key of breathe_projects are all the identical
    string 'OLSRT', and html_title begins with that string. *)
Theorem project_name_consistent (ns0 : namespace) :
  exists (p t : string) (m : gmap string value),
    config_value ns0 "project" = Some (VStr p) /\
    config_value ns0 "breathe_default_project" = Some (VStr p) /\
    config_value ns0 "breathe_projects" = Some (VDict m) /\
    dom m = {[ p ]} /\
    p = "OLSRT" /\
    config_value ns0 "html_title" = Some (VStr t) /\
    String.prefix p t = true.
Proof.
  exists "OLSRT", "OLSRT Documention", {[ "OLSRT" := VStr "./xml" ]}.
  split; [config_lookup|]. split; [config_lookup|]. split; [config_lookup|].
  split; [apply dom_singleton_L|]. split; [reflexivity|].
  split; [config_lookup|reflexivity].
Qed.

(** C9: html_theme is 'furo' and html_title is the literal
    'OLSRT Documention', which is not 'OLSRT Documentation'. *)
Theorem html_theme_and_title (ns0 : namespace) :
  config_value ns0 "html_theme" = Some (VStr "furo") /\
  config_value ns0 "html_title" = Some (VStr "OLSRT Documention") /\
  config_value ns0 "html_title" <> Some (VStr "OLSRT Documentation") /\
  bindings conf_py "html_title" = [EStr "OLSRT Documention"].
Proof.
  assert (Htitle : config_value ns0 "html_title"
                   = Some (VStr "OLSRT Documention")) by config_lookup.
  split; [config_lookup|]. split; [exact Htitle|]. split.
  - rewrite Htitle. discriminate.
  - vm_compute. reflexivity.
Qed.

(** C10: 'breathe' is the first element (index 0) of the extensions list,
    listed before the four 'sphinx.ext.*' extensions. *)
Theorem breathe_listed_first (ns0 : namespace) :
  exists (exts rest : list string),
    config_value ns0 "extensions" = Some (VList (VStr <$> exts)) /\
    exts !! 0 = Some "breathe" /\
    exts = "breathe" :: rest /\
    length rest = 4 /\
    Forall (fun x => String.prefix "sphinx.ext." x = true) rest /\
    String.prefix "sphinx.ext." "breathe" = false.
Proof.
  exists recognized_identifiers, (tail recognized_identifiers).
  split; [config_lookup|]. split; [reflexivity|].
  split; [reflexivity|]. split; [reflexivity|].
  split; [repeat constructor|reflexivity].
Qed.

(** ** Further properties of the module as a whole *)




(** X3: the order of the assignments in conf.py does not matter: every
    reordering of its statements runs to the same module globals. *)
Theorem statement_order_irrelevant (body' : list stmt) (ns0 : namespace) :
  conf_py ≡ₚ body' -> exec body' ns0 = exec conf_py ns0.
Proof.
  intros Hperm. destruct (conf_py_runs ns0) as (m & _ & Hrun).
  rewrite Hrun.
  apply (exec_literal_permutation conf_py body' Hperm
           conf_py_literal conf_py_bound_once ns0 _ Hrun).
Qed.

Lemma statement_order_irrelevant_witness :
  conf_py ≡ₚ reverse conf_py /\
  exec (reverse conf_py) ∅ = exec conf_py ∅.
Proof.
  assert (Hperm : conf_py ≡ₚ reverse conf_py).
  { symmetry. apply reverse_Permutation. }
  split; [exact Hperm|].
  apply (statement_order_irrelevant (reverse conf_py) ∅ Hperm).
Defined.

(** X4: executing conf.py again in the namespace it produced changes
    nothing, so running the module twice in a row gives the same globals
    as running it once. *)
Theorem reexecution_changes_nothing (ns0 : namespace) :
  exists r : namespace,
    exec conf_py ns0 = Ok r /\
    exec conf_py r = Ok r /\
    exec (conf_py ++ conf_py) ns0 = Ok r.
Proof.
  destruct (conf_py_runs ns0) as (m & Hm & Hrun).
  assert (Hagain : exec conf_py (m ∪ ns0) = Ok (m ∪ ns0)).
  { rewrite <- (left_id_L ∅ (∪) (m ∪ ns0)) at 1.
    rewrite (exec_literal_frame conf_py ∅ (m ∪ ns0) m conf_py_literal Hm).
    rewrite (assoc_L (∪)), (idemp_L (∪)). reflexivity. }
  exists (m ∪ ns0). split; [exact Hrun|]. split; [exact Hagain|].
  rewrite exec_app, Hrun. simpl. exact Hagain.
Qed.

(** X5: every value conf.py sets is flat: a string, a list of strings, or
    a dict from strings to strings; no setting nests a container in a
    container. *)
Theorem configuration_values_flat (ns0 : namespace) :
  Forall (fun k => exists v, config_value ns0 k = Some v /\ flat_value v = true)
    (bound_names conf_py).
Proof.
  repeat constructor; eexists;
    (split; [config_lookup|vm_compute; reflexivity]).
Qed.
